(** * scripts/compress_glb.py: a Blender driver that re-exports a GLB with Draco

    The script is straight-line glue over three collaborators: the Python
    runtime (list indexing, integer and float division, string formatting),
    Blender's operator API ([bpy.ops]) and the file system ([os.path]).
    The runtime fragment is modelled concretely (floats are IEEE 754
    binary64, as [spec_float] with precision 53 and maximal exponent 1024);
    the host is an interface whose operators may raise; the script is a
    computation in a small monad that threads the host's world, records
    every print and every host call in a trace, and stops at the first
    exception. *)

From Stdlib Require Import ZArith NArith List String Ascii Bool Lia DecimalString.
From Stdlib Require Import Floats.SpecFloat.
Import ListNotations.
Local Open Scope string_scope.

(** ** The fragment of the Python runtime the script relies on *)

Module Py.

(** Exceptions that can reach the top level of the script. [RuntimeError]
    is what a [bpy.ops] call raises when the operator reports an error,
    [OSError] what [os.path.getsize] raises, [SystemExit] what [sys.exit]
    would raise. *)
Inductive exn : Type :=
| ValueError
| IndexError
| ZeroDivisionError
| OverflowError
| RuntimeError (msg : string)
| OSError (msg : string)
| SystemExit (code : Z).

(** [l.index(x)]: position of the first element equal to [x]. *)
Fixpoint list_index (l : list string) (x : string) : exn + nat :=
  match l with
  | [] => inl ValueError
  | y :: l' =>
      if String.eqb y x then inr O
      else match list_index l' x with
           | inl e => inl e
           | inr i => inr (S i)
           end
  end.

(** [l[i]] for a non-negative [i]. *)
Definition list_getitem (l : list string) (i : nat) : exn + string :=
  match nth_error l i with
  | Some x => inr x
  | None => inl IndexError
  end.

(** *** Floats *)

Definition float : Type := spec_float.

Definition prec : Z := 53.
Definition emax : Z := 1024.

Definition fsub : float -> float -> float := SFsub prec emax.
Definition fmul : float -> float -> float := SFmul prec emax.
Definition fdiv : float -> float -> float := SFdiv prec emax.

(** An integer as an exact, not yet rounded, binary number. *)
Definition exact_of_int (n : Z) : float :=
  match n with
  | Z0 => S754_zero false
  | Zpos p => S754_finite false p 0
  | Zneg p => S754_finite true p 0
  end.

(** [float(n)]: the integer rounded to the nearest float. *)
Definition float_of_int (n : Z) : float := binary_normalize prec emax n 0 false.

Definition is_zero (x : float) : bool :=
  match x with
  | S754_zero _ => true
  | _ => false
  end.

(** [a / b] on two ints: the correctly rounded quotient. *)
Definition int_truediv (a b : Z) : exn + float :=
  if Z.eqb b 0 then inl ZeroDivisionError
  else match fdiv (exact_of_int a) (exact_of_int b) with
       | S754_infinity _ => inl OverflowError
       | q => inr q
       end.

(** [x / y] on two floats. *)
Definition float_truediv (x y : float) : exn + float :=
  if is_zero y then inl ZeroDivisionError else inr (fdiv x y).

(** *** Fixed-point formatting, [format(x, '.<d>f')] *)

(** [num / den] rounded to the nearest integer, ties to even
    ([0 <= num], [0 < den]). *)
Definition round_half_even (num den : Z) : Z :=
  let q := (num / den)%Z in
  match (2 * (num mod den) ?= den)%Z with
  | Lt => q
  | Gt => (q + 1)%Z
  | Eq => if Z.even q then q else (q + 1)%Z
  end.

(** The magnitude [m * 2^e], scaled by [10^d] and rounded to an integer. *)
Definition scaled (d : nat) (m : positive) (e : Z) : Z :=
  let p := (10 ^ Z.of_nat d)%Z in
  if (0 <=? e)%Z then (Zpos m * 2 ^ e * p)%Z
  else round_half_even (Zpos m * p) (2 ^ (- e)).

Definition digits (n : Z) : string :=
  NilZero.string_of_uint (N.to_uint (Z.to_N n)).

Fixpoint zeros (k : nat) : string :=
  match k with
  | O => ""
  | S k' => String "0" (zeros k')
  end.

(** Left-pad with zeros to width [d]. *)
Definition zfill (d : nat) (s : string) : string :=
  zeros (d - String.length s) ++ s.

Definition fixed (d : nat) (sign : bool) (n : Z) : string :=
  let p := (10 ^ Z.of_nat d)%Z in
  (if sign then "-" else "") ++ digits (n / p) ++
  match d with
  | O => ""
  | S _ => "." ++ zfill d (digits (n mod p))
  end.

Definition format_f (d : nat) (x : float) : string :=
  match x with
  | S754_nan => "nan"
  | S754_infinity s => if s then "-inf" else "inf"
  | S754_zero s => fixed d s 0
  | S754_finite s m e => fixed d s (scaled d m e)
  end.

End Py.

(** ** The host: Blender's operators and the file system *)

Module Bpy.

(** The [action] argument of [bpy.ops.object.select_all]. *)
Inductive select_action : Type := TOGGLE | SELECT | DESELECT | INVERT.

(** The keyword arguments the script passes to [bpy.ops.export_scene.gltf]. *)
Record export_kwargs : Type := {
  filepath : string;
  export_format : string;
  export_draco_mesh_compression_enable : bool;
  export_draco_mesh_compression_level : Z;
  export_draco_position_quantization : Z;
  export_draco_normal_quantization : Z;
  export_draco_texcoord_quantization : Z;
  export_texture_dir : string;
  export_image_format : string;
  export_animations : bool;
  export_morph : bool;
  export_skins : bool
}.

(** A call from the script into the host. *)
Inductive call : Type :=
| SelectAll (action : select_action)
| Delete
| ImportGltf (path : string)
| ExportGltf (kw : export_kwargs)
| Getsize (path : string).

(** What the outside can observe of a run: a line on stdout, or a host
    call together with the world it was issued in. *)
Inductive event (W : Type) : Type :=
| Print (line : string)
| Call (c : call) (w : W).
Arguments Print {W} line.
Arguments Call {W} c w.

(** The host over a world [W] (scene and files). Every entry either
    returns, with the new world or the value, or raises with a message. *)
Record host (W : Type) : Type := {
  select_all : select_action -> W -> string + W;
  delete : W -> string + W;
  import_gltf : string -> W -> string + W;
  export_gltf : export_kwargs -> W -> string + W;
  getsize : string -> W -> string + N
}.
Arguments select_all {W} h a w.
Arguments delete {W} h w.
Arguments import_gltf {W} h p w.
Arguments export_gltf {W} h kw w.
Arguments getsize {W} h p w.

End Bpy.

Import Py Bpy.

(** ** The script *)

(** Line 6: [input_file = sys.argv[sys.argv.index("--") + 1]]. *)
Definition input_file (argv : list string) : exn + string :=
  match list_index argv "--" with
  | inl e => inl e
  | inr i => list_getitem argv (i + 1)
  end.

(** Line 7: [output_file = sys.argv[sys.argv.index("--") + 2]]. *)
Definition output_file (argv : list string) : exn + string :=
  match list_index argv "--" with
  | inl e => inl e
  | inr i => list_getitem argv (i + 2)
  end.

(** Lines 29-42: the keyword arguments of the export call. *)
Definition export_settings (output_file : string) : export_kwargs := {|
  filepath := output_file;
  export_format := "GLB";
  export_draco_mesh_compression_enable := true;
  export_draco_mesh_compression_level := 6;
  export_draco_position_quantization := 14;
  export_draco_normal_quantization := 10;
  export_draco_texcoord_quantization := 12;
  export_texture_dir := "";
  export_image_format := "AUTO";
  export_animations := true;
  export_morph := true;
  export_skins := true
|}.

(** Lines 47-48: a size in bytes as a float number of megabytes. *)
Definition megabytes (size : N) : exn + float :=
  int_truediv (Z.of_N size) (1024 * 1024).

(** Line 51: [(1 - output_size/input_size) * 100]. *)
Definition ratio_percent (output_size input_size : float) : exn + float :=
  match float_truediv output_size input_size with
  | inl e => inl e
  | inr q => inr (fmul (fsub (float_of_int 1) q) (float_of_int 100))
  end.

(** How a run ends: it falls off the end of the script, or an exception
    reaches the top level. *)
Inductive outcome : Type :=
| Finished
| Uncaught (e : exn).

Section Script.

Context {W : Type} (h : host W).

(** The state of a run: the host's world and the trace so far. *)
Definition state : Type := W * list (event W).

(** A step either raises or returns a value; the state survives both. *)
Definition M (A : Type) : Type := state -> (exn + A) * state.

Definition ret {A : Type} (a : A) : M A := fun s => (inr a, s).

Definition bind {A B : Type} (m : M A) (k : A -> M B) : M B :=
  fun s =>
    match m s with
    | (inl e, s') => (inl e, s')
    | (inr a, s') => k a s'
    end.

Definition lift {A : Type} (r : exn + A) : M A := fun s => (r, s).

(** [print(line)]; writing to stdout is taken to succeed. *)
Definition print (line : string) : M unit :=
  fun s => (inr tt, (fst s, (snd s ++ [Print line])%list)).

(** A [bpy.ops] operator: logged, then run; its error report surfaces as
    a [RuntimeError]. *)
Definition operator (c : call) (op : W -> string + W) : M unit :=
  fun s =>
    let t := (snd s ++ [Call c (fst s)])%list in
    match op (fst s) with
    | inl msg => (inl (RuntimeError msg), (fst s, t))
    | inr w' => (inr tt, (w', t))
    end.

Definition os_path_getsize (path : string) : M N :=
  fun s =>
    let t := (snd s ++ [Call (Getsize path) (fst s)])%list in
    match getsize h path (fst s) with
    | inl msg => (inl (OSError msg), (fst s, t))
    | inr n => (inr n, (fst s, t))
    end.

Local Notation "x <- m ;; k" := (bind m (fun x => k))
  (at level 61, m at next level, right associativity).
Local Notation "m ;; k" := (bind m (fun _ => k))
  (at level 61, right associativity).

(** Lines 9-51, with the two paths of lines 6-7 as arguments. *)
Definition compress (input_file output_file : string) : M unit :=
  print ("Compressing " ++ input_file ++ " -> " ++ output_file) ;;
  operator (SelectAll SELECT) (select_all h SELECT) ;;
  operator Delete (delete h) ;;
  print "Importing GLB..." ;;
  operator (ImportGltf input_file) (import_gltf h input_file) ;;
  print "Skipping texture optimization (using original textures)" ;;
  print "Skipping mesh decimation (preserving morph targets for facial animation)" ;;
  print "Exporting compressed GLB..." ;;
  operator (ExportGltf (export_settings output_file))
           (export_gltf h (export_settings output_file)) ;;
  print "Compression complete!" ;;
  input_bytes <- os_path_getsize input_file ;;
  input_size <- lift (megabytes input_bytes) ;;
  output_bytes <- os_path_getsize output_file ;;
  output_size <- lift (megabytes output_bytes) ;;
  print ("Input size: " ++ format_f 2 input_size ++ " MB") ;;
  print ("Output size: " ++ format_f 2 output_size ++ " MB") ;;
  ratio <- lift (ratio_percent output_size input_size) ;;
  print ("Compression ratio: " ++ format_f 1 ratio ++ "%").

(** The whole script, lines 6-51. *)
Definition main (argv : list string) : M unit :=
  input_file <- lift (input_file argv) ;;
  output_file <- lift (output_file argv) ;;
  compress input_file output_file.

Record run_result : Type := {
  result : outcome;
  final : W;
  trace : list (event W)
}.

(** Running the script with command line [argv] in world [w]. *)
Definition run (argv : list string) (w : W) : run_result :=
  match main argv (w, []) with
  | (inl e, (w', t)) => {| result := Uncaught e; final := w'; trace := t |}
  | (inr _, (w', t)) => {| result := Finished; final := w'; trace := t |}
  end.

End Script.

Arguments result {W} r.
Arguments final {W} r.
Arguments trace {W} r.

(** ** A small host to run the script on

    A stand-in for Blender and the file system, small enough to evaluate:
    a scene is a list of objects, a file has a size and lists the nodes it
    holds. The importer accepts every file that exists; the exporter writes
    the nodes of the scene, twelve bytes of header and a megabyte a node. *)

Module Sample.

Record object : Type := {
  name : string;
  hidden : bool;
  source : option string
}.

Record file : Type := {
  size : N;
  nodes : list string
}.

Record world : Type := {
  scene : list object;
  selection : list string;
  files : list (string * file)
}.

Fixpoint lookup (path : string) (fs : list (string * file)) : option file :=
  match fs with
  | [] => None
  | (p, f) :: fs' => if String.eqb p path then Some f else lookup path fs'
  end.

Definition is_selected (w : world) (o : object) : bool :=
  existsb (String.eqb (name o)) (selection w).

Definition is_visible (w : world) (o : object) : bool := negb (hidden o).

Definition provenance (w : world) (o : object) : option string := source o.

Definition select_all (a : select_action) (w : world) : string + world :=
  let visible := filter (fun o => negb (hidden o)) (scene w) in
  let chosen :=
    match a with
    | SELECT => visible
    | DESELECT => []
    | INVERT => filter (fun o => negb (is_selected w o)) visible
    | TOGGLE => match selection w with [] => visible | _ => [] end
    end in
  inr {| scene := scene w; selection := map name chosen; files := files w |}.

Definition delete (w : world) : string + world :=
  inr {| scene := filter (fun o => negb (is_selected w o)) (scene w);
         selection := [];
         files := files w |}.

Definition import_gltf (path : string) (w : world) : string + world :=
  match lookup path (files w) with
  | None => inl "Please select a file"
  | Some f =>
      let loaded :=
        map (fun n => {| name := n; hidden := false; source := Some path |})
            (nodes f) in
      inr {| scene := (scene w ++ loaded)%list;
             selection := map name loaded;
             files := files w |}
  end.

Definition export_gltf (kw : export_kwargs) (w : world) : string + world :=
  if String.eqb (filepath kw) EmptyString then inl "filepath not set"
  else
    let written :=
      {| size := 12 + 1048576 * N.of_nat (List.length (scene w));
         nodes := map name (scene w) |} in
    inr {| scene := scene w;
           selection := selection w;
           files := (filepath kw, written) :: files w |}.

Definition getsize (path : string) (w : world) : string + N :=
  match lookup path (files w) with
  | None => inl "No such file or directory"
  | Some f => inr (size f)
  end.

Definition blender : host world := {|
  Bpy.select_all := select_all;
  Bpy.delete := delete;
  Bpy.import_gltf := import_gltf;
  Bpy.export_gltf := export_gltf;
  Bpy.getsize := getsize
|}.

(** Blender's factory start-up scene. *)
Definition startup_scene : list object :=
  [ {| name := "Camera"; hidden := false; source := None |};
    {| name := "Cube"; hidden := false; source := None |};
    {| name := "Light"; hidden := false; source := None |} ].

(** A start-up world with a three-megabyte head model on disk, and an
    empty file. *)
Definition start : world := {|
  scene := startup_scene;
  selection := [];
  files := [ ("head.glb", {| size := 3145728; nodes := ["Head"; "Jaw"] |});
             ("empty.glb", {| size := 0; nodes := [] |}) ]
|}.

Definition argv : list string :=
  ["blender"; "-b"; "-P"; "compress_glb.py"; "--"; "head.glb"; "out.glb"].

Definition argv_empty : list string :=
  ["blender"; "-b"; "-P"; "compress_glb.py"; "--"; "empty.glb"; "out.glb"].


Definition argv_missing : list string :=
  ["blender"; "-b"; "-P"; "compress_glb.py"; "--"; "gone.glb"; "out.glb"].

Definition argv_bare : list string :=
  ["blender"; "-b"; "-P"; "compress_glb.py"].

Definition argv_short : list string :=
  ["blender"; "-b"; "-P"; "compress_glb.py"; "--"; "head.glb"].

Definition argv_in_place : list string :=
  ["blender"; "-b"; "-P"; "compress_glb.py"; "--"; "head.glb"; "head.glb"].

Definition argv_empty_in_place : list string :=
  ["blender"; "-b"; "-P"; "compress_glb.py"; "--"; "empty.glb"; "empty.glb"].

(** The worlds the run on [argv] goes through. *)
Definition selected : world := {|
  scene := startup_scene;
  selection := ["Camera"; "Cube"; "Light"];
  files := files start
|}.

Definition cleared : world := {|
  scene := [];
  selection := [];
  files := files start
|}.

Definition loaded (path : string) (ns : list string) : world := {|
  scene := map (fun n => {| name := n; hidden := false; source := Some path |}) ns;
  selection := ns;
  files := files start
|}.

Definition exported (path : string) (ns : list string) : world := {|
  scene := scene (loaded path ns);
  selection := ns;
  files := ("out.glb",
            {| size := 12 + 1048576 * N.of_nat (List.length ns); nodes := ns |})
           :: files start
|}.

End Sample.

(** ** Vocabulary of the statements *)

(** The host calls of a trace, in order. *)
Definition calls {W : Type} (t : list (event W)) : list call :=
  flat_map (fun ev => match ev with Call c _ => [c] | Print _ => [] end) t.

(** The lines printed in a trace, in order. *)
Definition prints {W : Type} (t : list (event W)) : list string :=
  flat_map (fun ev => match ev with Print l => [l] | Call _ _ => [] end) t.

(** The calls that read or write a scene file. *)
Definition is_transfer (c : call) : bool :=
  match c with
  | ImportGltf _ | ExportGltf _ => true
  | _ => false
  end.

Definition transfers {W : Type} (t : list (event W)) : list call :=
  filter is_transfer (calls t).

(** The host calls of lines 12-48, in program order. *)
Definition planned_calls (input_file output_file : string) : list call :=
  [ SelectAll SELECT; Delete; ImportGltf input_file;
    ExportGltf (export_settings output_file);
    Getsize input_file; Getsize output_file ].

Definition has_separator (argv : list string) : bool :=
  existsb (String.eqb "--") argv.

(** The exception a host call raises when issued in world [w], if any. *)
Definition raises {W : Type} (h : host W) (c : call) (w : W) : option exn :=
  let report (r : string + W) :=
    match r with
    | inl msg => Some (RuntimeError msg)
    | inr _ => None
    end in
  match c with
  | SelectAll a => report (select_all h a w)
  | Delete => report (delete h w)
  | ImportGltf p => report (import_gltf h p w)
  | ExportGltf kw => report (export_gltf h kw w)
  | Getsize p =>
      match getsize h p w with
      | inl msg => Some (OSError msg)
      | inr _ => None
      end
  end.

(** The compression parameters of an export call: Draco on or off, its
    level, the three quantization depths, and the three preservation flags. *)
Definition compression_parameters (kw : export_kwargs)
  : bool * Z * Z * Z * Z * bool * bool * bool :=
  (export_draco_mesh_compression_enable kw,
   export_draco_mesh_compression_level kw,
   export_draco_position_quantization kw,
   export_draco_normal_quantization kw,
   export_draco_texcoord_quantization kw,
   export_animations kw,
   export_morph kw,
   export_skins kw).

(** An export call with its file path replaced. *)
Definition with_filepath (path : string) (kw : export_kwargs) : export_kwargs := {|
  filepath := path;
  export_format := export_format kw;
  export_draco_mesh_compression_enable := export_draco_mesh_compression_enable kw;
  export_draco_mesh_compression_level := export_draco_mesh_compression_level kw;
  export_draco_position_quantization := export_draco_position_quantization kw;
  export_draco_normal_quantization := export_draco_normal_quantization kw;
  export_draco_texcoord_quantization := export_draco_texcoord_quantization kw;
  export_texture_dir := export_texture_dir kw;
  export_image_format := export_image_format kw;
  export_animations := export_animations kw;
  export_morph := export_morph kw;
  export_skins := export_skins kw
|}.

(** The summary as the specification words it, on the two sizes in bytes:
    [(1 - output_size/input_size) * 100]. *)
Definition size_ratio_summary (input_bytes output_bytes : N) : float :=
  fmul (fsub (float_of_int 1)
             (fdiv (exact_of_int (Z.of_N output_bytes))
                   (exact_of_int (Z.of_N input_bytes))))
       (float_of_int 100).

(** The mantissa of a positive integer below [2^53], shifted up to 53 bits. *)
Definition mantissa53 (p : positive) : positive :=
  Z.to_pos (Zpos p * 2 ^ (53 - Zpos (digits2_pos p))).

(** The claim that a trace imports once, then exports once, and touches the
    scene files at no other point. *)
Definition imports_then_exports_once {W : Type} (t : list (event W)) : Prop :=
  exists (p : string) (kw : export_kwargs),
    transfers t = [ImportGltf p; ExportGltf kw].

(** The events of lines 9-48 in a run whose operators all return: [w] is
    the world at the start, [w1] after the selection, [w2] after the
    deletion, [w3] after the import and [w4] after the export. *)
Definition progress {W : Type} (input_file output_file : string)
    (w w1 w2 w3 w4 : W) : list (event W) :=
  [ Print ("Compressing " ++ input_file ++ " -> " ++ output_file);
    Call (SelectAll SELECT) w;
    Call Delete w1;
    Print "Importing GLB...";
    Call (ImportGltf input_file) w2;
    Print "Skipping texture optimization (using original textures)";
    Print "Skipping mesh decimation (preserving morph targets for facial animation)";
    Print "Exporting compressed GLB...";
    Call (ExportGltf (export_settings output_file)) w3;
    Print "Compression complete!";
    Call (Getsize input_file) w4;
    Call (Getsize output_file) w4 ].

(** The float that lines 47-48 compute for a size below [2^53] bytes. *)
Definition megabytes_value (size : N) : float :=
  match size with
  | N0 => S754_zero false
  | Npos p => S754_finite false (mantissa53 p) (Zpos (digits2_pos p) - 73)
  end.

(** * Properties *)

Local Open Scope list_scope.

(** ** Binary64 division of file sizes *)

Section Binary64.

Local Open Scope Z_scope.

Lemma digits2_pos_bounds (p : positive) :
  2 ^ (Zpos (digits2_pos p) - 1) <= Zpos p < 2 ^ Zpos (digits2_pos p).
Proof.
  induction p as [p IH | p IH |]; cbn [digits2_pos].
  - rewrite Pos2Z.inj_succ.
    replace (Z.succ (Zpos (digits2_pos p)) - 1) with (Z.succ (Zpos (digits2_pos p) - 1)) by lia.
    rewrite !Z.pow_succ_r by lia. lia.
  - rewrite Pos2Z.inj_succ.
    replace (Z.succ (Zpos (digits2_pos p)) - 1) with (Z.succ (Zpos (digits2_pos p) - 1)) by lia.
    rewrite !Z.pow_succ_r by lia. lia.
  - cbn. lia.
Qed.

Lemma digits2_pos_unique (p : positive) (d : Z) :
  2 ^ (d - 1) <= Zpos p < 2 ^ d -> Zpos (digits2_pos p) = d.
Proof.
  intros [Hlo Hhi].
  pose proof (digits2_pos_bounds p) as [Blo Bhi].
  set (k := Zpos (digits2_pos p)) in *.
  assert (Hk : 0 < k) by (subst k; lia).
  destruct (Z.lt_trichotomy k d) as [Hlt | [Heq | Hgt]]; [| exact Heq |].
  - assert (2 ^ k <= 2 ^ (d - 1)) by (apply Z.pow_le_mono_r; lia). lia.
  - assert (d <= 0 \/ 0 < d) as [Hd | Hd] by lia.
    + assert (2 ^ d <= 1).
      { destruct (Z.eq_dec d 0) as [-> | Hn]; [cbn; lia |].
        rewrite Z.pow_neg_r by lia. lia. }
      lia.
    + assert (2 ^ d <= 2 ^ (k - 1)) by (apply Z.pow_le_mono_r; lia). lia.
Qed.

Lemma div_eucl_pair (a b : Z) : Z.div_eucl a b = (a / b, a mod b).
Proof. unfold Z.div, Z.modulo. destruct (Z.div_eucl a b); reflexivity. Qed.

Lemma SFdiv_core_binary_shift (m1 e1 m2 e2 e' s : Z) :
  e' = Z.min (fexp prec emax (Zdigits2 m1 + e1 - (Zdigits2 m2 + e2))) (e1 - e2) ->
  s = e1 - e2 - e' ->
  0 < s ->
  SFdiv_core_binary prec emax m1 e1 m2 e2 =
  (m1 * 2 ^ s / m2, e', new_location m2 (m1 * 2 ^ s mod m2)).
Proof.
  intros He' Hs Hpos. unfold SFdiv_core_binary.
  rewrite <- He', <- Hs.
  destruct s as [| sp | sp]; try lia.
  rewrite Z.shiftl_mul_pow2 by lia.
  rewrite div_eucl_pair. reflexivity.
Qed.

Lemma new_location_scale (b r k : Z) :
  0 < b -> 0 <= r < b -> 0 <= k ->
  new_location (b * 2 ^ k) (r * 2 ^ k) = new_location b r.
Proof.
  intros Hb Hr Hk.
  assert (Hp : 0 < 2 ^ k) by (apply Z.pow_pos_nonneg; lia).
  destruct (Z.eq_dec k 0) as [-> | Hk0].
  { rewrite Z.pow_0_r, !Z.mul_1_r. reflexivity. }
  assert (Hev : Z.even (b * 2 ^ k) = true).
  { rewrite Z.even_mul. replace k with (Z.succ (k - 1)) by lia.
    rewrite Z.pow_succ_r by lia. rewrite Z.even_mul. cbn. apply orb_true_r. }
  unfold new_location. rewrite Hev.
  assert (Hcmp : (2 * (r * 2 ^ k) ?= b * 2 ^ k) = (2 * r ?= b)).
  { replace (2 * (r * 2 ^ k)) with (2 * r * 2 ^ k) by ring.
    symmetry. apply Zmult_compare_compat_r. lia. }
  destruct (Z.even b) eqn:Eb; unfold new_location_even, new_location_odd;
    destruct (Z.eqb_spec r 0) as [-> | Hr0]; try reflexivity;
    (destruct (Z.eqb_spec (r * 2 ^ k) 0) as [E | _]; [nia |]);
    rewrite Hcmp; [reflexivity |].
  f_equal.
  assert (Hodd : Z.odd b = true) by (rewrite <- Z.negb_even, Eb; reflexivity).
  apply Z.odd_spec in Hodd. destruct Hodd as [c Hc].
  destruct (Z.compare_spec (2 * r) b), (Z.compare_spec (2 * r + 1) b); try reflexivity; lia.
Qed.

Lemma binary_round_aux_one_spare_bit (s : bool) (q : positive) (e : Z) :
  Zpos (digits2_pos q) = 53 -> -1075 <= e <= 970 ->
  binary_round_aux prec emax s (Zpos q~0) e loc_Exact = S754_finite s q (e + 1).
Proof.
  intros Hd He. unfold binary_round_aux, shr_fexp.
  cbn [Zdigits2 digits2_pos shr_record_of_loc]. rewrite Pos2Z.inj_succ, Hd.
  replace (fexp prec emax (Z.succ 53 + e) - e) with 1
    by (unfold fexp, SpecFloat.emin, prec, emax; lia).
  cbn [shr iter_pos shr_1 orb shr_m loc_of_shr_record round_nearest_even
       Zdigits2 shr_record_of_loc].
  rewrite Hd.
  replace (fexp prec emax (53 + (e + 1)) - (e + 1)) with 0
    by (unfold fexp, SpecFloat.emin, prec, emax; lia).
  cbn [shr shr_m].
  replace (e + 1 <=? emax - prec) with true
    by (symmetry; apply Z.leb_le; unfold prec, emax; lia).
  reflexivity.
Qed.

Lemma mantissa53_spec (p : positive) :
  Zpos p < 2 ^ 53 ->
  Zpos (digits2_pos p) <= 53 /\
  Zpos (mantissa53 p) = Zpos p * 2 ^ (53 - Zpos (digits2_pos p)) /\
  Zpos (digits2_pos (mantissa53 p)) = 53.
Proof.
  intros Hp. pose proof (digits2_pos_bounds p) as [Blo Bhi].
  set (d := Zpos (digits2_pos p)) in *.
  assert (Hd1 : 1 <= d) by (subst d; lia).
  assert (Hd : d <= 53).
  { destruct (Z_le_gt_dec d 53) as [H | H]; [exact H |].
    assert (2 ^ 53 <= 2 ^ (d - 1)) by (apply Z.pow_le_mono_r; lia). lia. }
  assert (Hk : 0 < 2 ^ (53 - d)) by (apply Z.pow_pos_nonneg; lia).
  assert (Hm : Zpos (mantissa53 p) = Zpos p * 2 ^ (53 - d)).
  { unfold mantissa53. fold d. rewrite Z2Pos.id by nia. reflexivity. }
  split; [exact Hd | split; [exact Hm |]].
  apply digits2_pos_unique. rewrite Hm.
  replace (2 ^ (53 - 1)) with (2 ^ (d - 1) * 2 ^ (53 - d))
    by (rewrite <- Z.pow_add_r by lia; f_equal; lia).
  replace (2 ^ 53) with (2 ^ d * 2 ^ (53 - d))
    by (rewrite <- Z.pow_add_r by lia; f_equal; lia).
  nia.
Qed.

Lemma fdiv_megabyte (p : positive) :
  Zpos p < 2 ^ 53 ->
  fdiv (S754_finite false p 0) (S754_finite false 1048576 0) =
  S754_finite false (mantissa53 p) (Zpos (digits2_pos p) - 73).
Proof.
  intros Hp. destruct (mantissa53_spec p Hp) as (Hd & Hm & Hdm).
  set (d := Zpos (digits2_pos p)) in *.
  assert (Hd1 : 1 <= d) by (subst d; lia).
  unfold fdiv, SFdiv.
  rewrite (SFdiv_core_binary_shift _ _ _ _ (d - 74) (74 - d)).
  2:{ cbn [Zdigits2]. fold d.
      change (Zpos (digits2_pos 1048576)) with 21.
      unfold fexp, SpecFloat.emin, prec, emax. lia. }
  2: lia.
  2: lia.
  assert (Hq : Zpos p * 2 ^ (74 - d) = Zpos (mantissa53 p)~0 * 1048576).
  { rewrite (Pos2Z.inj_xO (mantissa53 p)), Hm.
    replace (74 - d) with ((53 - d) + 1 + 20) by lia.
    rewrite !Z.pow_add_r by lia. change (2 ^ 1) with 2. change (2 ^ 20) with 1048576. ring. }
  rewrite Hq, Z.div_mul, Z.mod_mul by lia.
  change (new_location 1048576 0) with loc_Exact.
  cbn [xorb].
  rewrite binary_round_aux_one_spare_bit by (try exact Hdm; lia).
  f_equal. lia.
Qed.

Lemma fdiv_megabytes_cancel (po pi : positive) :
  Zpos po < 2 ^ 53 -> Zpos pi < 2 ^ 53 ->
  fdiv (S754_finite false (mantissa53 po) (Zpos (digits2_pos po) - 73))
       (S754_finite false (mantissa53 pi) (Zpos (digits2_pos pi) - 73)) =
  fdiv (S754_finite false po 0) (S754_finite false pi 0).
Proof.
  intros Ho Hi.
  destruct (mantissa53_spec po Ho) as (Hdo & Hmo & Hdmo).
  destruct (mantissa53_spec pi Hi) as (Hdi & Hmi & Hdmi).
  set (a := Zpos (digits2_pos po)) in *.
  set (b := Zpos (digits2_pos pi)) in *.
  assert (Ha1 : 1 <= a) by (subst a; lia).
  assert (Hb1 : 1 <= b) by (subst b; lia).
  unfold fdiv, SFdiv.
  rewrite (SFdiv_core_binary_shift (Zpos (mantissa53 po)) _ _ _ (a - b - 53) 53).
  2:{ cbn [Zdigits2]. rewrite Hdmo, Hdmi.
      unfold fexp, SpecFloat.emin, prec, emax. lia. }
  2: lia.
  2: lia.
  rewrite (SFdiv_core_binary_shift (Zpos po) _ _ _ (a - b - 53) (53 + b - a)).
  2:{ cbn [Zdigits2]. fold a b.
      unfold fexp, SpecFloat.emin, prec, emax. lia. }
  2: lia.
  2: lia.
  set (A := Zpos po * 2 ^ (53 + b - a)).
  set (K := 2 ^ (53 - b)).
  assert (HK : 0 < K) by (apply Z.pow_pos_nonneg; lia).
  assert (HA : Zpos (mantissa53 po) * 2 ^ 53 = A * K).
  { rewrite Hmo. unfold A, K. rewrite <- !Z.mul_assoc, <- !Z.pow_add_r by lia.
    do 2 f_equal. lia. }
  rewrite HA, Hmi. fold K.
  rewrite Z.div_mul_cancel_r by lia.
  rewrite Z.mul_mod_distr_r by lia.
  unfold K. rewrite new_location_scale; [reflexivity | lia | | lia].
  apply Z.mod_pos_bound. lia.
Qed.

Lemma megabytes_exact (size : N) :
  Z.of_N size < 2 ^ 53 -> megabytes size = inr (megabytes_value size).
Proof.
  intros Hs. unfold megabytes, int_truediv.
  change (1024 * 1024) with 1048576. cbn [Z.eqb].
  destruct size as [| p]; [reflexivity |].
  cbn [Z.of_N exact_of_int megabytes_value].
  rewrite fdiv_megabyte by exact Hs. reflexivity.
Qed.

Lemma ratio_percent_megabytes (input_bytes output_bytes : N) :
  Z.of_N input_bytes < 2 ^ 53 -> Z.of_N output_bytes < 2 ^ 53 ->
  input_bytes <> 0%N ->
  ratio_percent (megabytes_value output_bytes) (megabytes_value input_bytes) =
  inr (size_ratio_summary input_bytes output_bytes).
Proof.
  intros Hi Ho Hnz. unfold ratio_percent, float_truediv, size_ratio_summary.
  destruct input_bytes as [| pi]; [congruence |].
  cbn [megabytes_value is_zero Z.of_N exact_of_int].
  destruct output_bytes as [| po]; [reflexivity |].
  cbn [megabytes_value Z.of_N exact_of_int].
  rewrite fdiv_megabytes_cancel by assumption. reflexivity.
Qed.

Lemma ratio_percent_of_nothing (output_size : float) :
  ratio_percent output_size (megabytes_value 0) = inl ZeroDivisionError.
Proof. reflexivity. Qed.

End Binary64.

(** ** The command line *)

Lemma has_separator_spec (argv : list string) :
  has_separator argv = true <-> In "--" argv.
Proof.
  unfold has_separator. rewrite existsb_exists. split.
  - intros (x & Hin & Heq). apply String.eqb_eq in Heq. subst x. exact Hin.
  - intros Hin. exists "--". split; [exact Hin | apply String.eqb_refl].
Qed.

Lemma list_index_absent (l : list string) (x : string) :
  ~ In x l -> list_index l x = inl ValueError.
Proof.
  induction l as [| y l IH]; intros Hn; [reflexivity |].
  cbn [list_index]. destruct (String.eqb_spec y x) as [-> | _].
  - exfalso. apply Hn. left. reflexivity.
  - rewrite IH; [reflexivity |]. intros Hin. apply Hn. right. exact Hin.
Qed.

Lemma list_index_first (pre l : list string) (x : string) :
  ~ In x pre -> list_index (pre ++ x :: l) x = inr (List.length pre).
Proof.
  induction pre as [| y pre IH]; intros Hn; cbn [app list_index List.length].
  - rewrite String.eqb_refl. reflexivity.
  - destruct (String.eqb_spec y x) as [-> | _].
    + exfalso. apply Hn. left. reflexivity.
    + rewrite IH; [reflexivity |]. intros Hin. apply Hn. right. exact Hin.
Qed.

Lemma nth_error_after (pre l : list string) (k : nat) :
  nth_error (pre ++ l) (List.length pre + k) = nth_error l k.
Proof.
  induction pre as [| y pre IH]; [reflexivity | exact IH].
Qed.

Lemma getitem_after_separator (pre rest : list string) (k : nat) :
  list_getitem (pre ++ "--" :: rest) (List.length pre + S k) =
  list_getitem rest k.
Proof.
  unfold list_getitem. rewrite nth_error_after. reflexivity.
Qed.

(** Every occurrence of the separator is at or after the first one, so two
    arguments after any occurrence mean two arguments after the first. *)
Lemma split_at_first_separator (argv : list string) :
  In "--" argv ->
  exists pre rest, ~ In "--" pre /\ argv = pre ++ "--" :: rest.
Proof.
  induction argv as [| y argv IH]; intros Hin; [destruct Hin |].
  destruct (String.eqb_spec y "--") as [-> | Hne].
  - exists [], argv. split; [intros [] | reflexivity].
  - destruct Hin as [Heq | Hin]; [congruence |].
    destruct (IH Hin) as (pre & rest & Hpre & ->).
    exists (y :: pre), rest. split; [| reflexivity].
    intros [Heq | Hin']; [congruence | exact (Hpre Hin')].
Qed.

Section Runs.

Context {W : Type} (h : host W).

Lemma run_input_file_raises (argv : list string) (w : W) (e : exn) :
  input_file argv = inl e ->
  run h argv w = {| result := Uncaught e; final := w; trace := [] |}.
Proof.
  intros H. unfold run, main, bind, lift. rewrite H. reflexivity.
Qed.

Lemma run_output_file_raises (argv : list string) (w : W) (a : string) (e : exn) :
  input_file argv = inr a -> output_file argv = inl e ->
  run h argv w = {| result := Uncaught e; final := w; trace := [] |}.
Proof.
  intros Ha Hb. unfold run, main, bind, lift. rewrite Ha, Hb. reflexivity.
Qed.

Lemma main_with_paths (argv : list string) (a b : string) (s : state) :
  input_file argv = inr a -> output_file argv = inr b ->
  main h argv s = compress h a b s.
Proof.
  intros Ha Hb. unfold main, bind, lift. rewrite Ha, Hb. reflexivity.
Qed.

End Runs.

(** C3. When the command line holds the separator and at least two arguments
    after it, the script takes the first argument after the separator as the
    input path and the second as the output path, and runs lines 9-51 on
    them. The separator is the first occurrence of the two dashes, the one
    [sys.argv.index] finds. *)
Theorem paths_follow_the_separator :
  forall (W : Type) (h : host W) (pre rest : list string) (a b : string),
    ~ In "--" pre ->
    input_file (pre ++ "--" :: a :: b :: rest) = inr a /\
    output_file (pre ++ "--" :: a :: b :: rest) = inr b /\
    forall s : state, main h (pre ++ "--" :: a :: b :: rest) s = compress h a b s.
Proof.
  intros W h pre rest a b Hpre.
  assert (Ha : input_file (pre ++ "--" :: a :: b :: rest) = inr a).
  { unfold input_file. rewrite list_index_first by exact Hpre.
    rewrite getitem_after_separator. reflexivity. }
  assert (Hb : output_file (pre ++ "--" :: a :: b :: rest) = inr b).
  { unfold output_file. rewrite list_index_first by exact Hpre.
    rewrite getitem_after_separator. reflexivity. }
  split; [exact Ha | split; [exact Hb |]].
  intros s. apply main_with_paths; assumption.
Qed.

Lemma paths_follow_the_separator_witness :
  ~ In "--" ["blender"; "-b"; "-P"; "compress_glb.py"] /\
  input_file Sample.argv = inr "head.glb" /\
  output_file Sample.argv = inr "out.glb" /\
  forall s : state,
    main Sample.blender Sample.argv s = compress Sample.blender "head.glb" "out.glb" s.
Proof.
  assert (H : ~ In "--" ["blender"; "-b"; "-P"; "compress_glb.py"]).
  { cbn. intros [E | [E | [E | [E | []]]]]; discriminate E. }
  split; [exact H |].
  exact (paths_follow_the_separator Sample.world Sample.blender
           ["blender"; "-b"; "-P"; "compress_glb.py"] [] "head.glb" "out.glb" H).
Defined.

(** C8. When the separator is absent from the command line the script raises
    ValueError, and when fewer than two arguments follow it the script
    raises IndexError; in both cases at lines 6-7, with an empty trace and
    the world untouched: nothing was read, changed, printed or written. *)
Theorem bad_command_line_raises_before_any_effect :
  forall (W : Type) (h : host W) (argv : list string) (w : W),
    (~ In "--" argv \/
     exists pre rest,
       ~ In "--" pre /\ argv = pre ++ "--" :: rest /\ List.length rest < 2) ->
    run h argv w =
    {| result := Uncaught (if has_separator argv then IndexError else ValueError);
       final := w;
       trace := [] |}.
Proof.
  intros W h argv w [Habs | (pre & rest & Hpre & -> & Hlen)].
  - assert (Hs : has_separator argv = false).
    { destruct (has_separator argv) eqn:E; [| reflexivity].
      apply has_separator_spec in E. contradiction. }
    rewrite Hs. apply run_input_file_raises.
    unfold input_file. rewrite list_index_absent by exact Habs. reflexivity.
  - assert (Hs : has_separator (pre ++ "--" :: rest) = true).
    { apply has_separator_spec. apply in_or_app. right. left. reflexivity. }
    rewrite Hs.
    destruct rest as [| a [| b rest]]; cbn [List.length] in Hlen; [| | lia].
    + apply run_input_file_raises. unfold input_file.
      rewrite list_index_first by exact Hpre.
      rewrite getitem_after_separator. reflexivity.
    + apply run_output_file_raises with (a := a).
      * unfold input_file. rewrite list_index_first by exact Hpre.
        rewrite getitem_after_separator. reflexivity.
      * unfold output_file. rewrite list_index_first by exact Hpre.
        rewrite getitem_after_separator. reflexivity.
Qed.

Lemma bad_command_line_raises_before_any_effect_witness :
  run Sample.blender Sample.argv_short Sample.start =
  {| result := Uncaught IndexError; final := Sample.start; trace := [] |}.
Proof.
  refine (bad_command_line_raises_before_any_effect
            Sample.world Sample.blender Sample.argv_short Sample.start _).
  right. exists ["blender"; "-b"; "-P"; "compress_glb.py"], ["head.glb"].
  split; [| split; [reflexivity | cbn; lia]].
  cbn. intros [E | [E | [E | [E | []]]]]; discriminate E.
Defined.

(** ** Runs, case by case *)

Ltac run_step :=
  cbv beta iota zeta
      delta [run main compress bind lift ret print operator os_path_getsize
             fst snd app result final trace];
  match goal with
  | |- context [match ?x with _ => _ end] =>
      lazymatch x with
      | context [match _ with _ => _ end] => fail
      | _ => destruct x eqn:?
      end
  end.

Ltac run_cases :=
  repeat run_step;
  cbv beta iota zeta
      delta [run main compress bind lift ret print operator os_path_getsize
             fst snd app result final trace].

Ltac pick_event H :=
  cbn [In] in H;
  repeat (destruct H as [H | H]; [try discriminate H |]);
  try contradiction.

Lemma list_index_raises (l : list string) (x : string) (e : exn) :
  list_index l x = inl e -> e = ValueError.
Proof.
  revert e. induction l as [| y l IH]; cbn [list_index]; intros e H.
  - congruence.
  - destruct (String.eqb y x); [discriminate |].
    destruct (list_index l x) as [e' |]; [| discriminate].
    injection H as <-. apply IH. reflexivity.
Qed.

Lemma input_file_raises (argv : list string) (e : exn) :
  input_file argv = inl e -> e = ValueError \/ e = IndexError.
Proof.
  unfold input_file, list_getitem. intros H.
  destruct (list_index argv "--") as [e' | i] eqn:Hi.
  - left. injection H as <-. exact (list_index_raises _ _ _ Hi).
  - destruct (nth_error argv (i + 1)); [discriminate |]. right. congruence.
Qed.

Lemma output_file_raises (argv : list string) (e : exn) :
  output_file argv = inl e -> e = ValueError \/ e = IndexError.
Proof.
  unfold output_file, list_getitem. intros H.
  destruct (list_index argv "--") as [e' | i] eqn:Hi.
  - left. injection H as <-. exact (list_index_raises _ _ _ Hi).
  - destruct (nth_error argv (i + 2)); [discriminate |]. right. congruence.
Qed.

Lemma megabytes_raises (size : N) (e : exn) :
  megabytes size = inl e -> e = OverflowError.
Proof.
  unfold megabytes, int_truediv. change (1024 * 1024)%Z with 1048576%Z.
  cbn [Z.eqb]. destruct (fdiv _ _); congruence.
Qed.

Lemma ratio_percent_raises (x y : float) (e : exn) :
  ratio_percent x y = inl e -> e = ZeroDivisionError.
Proof.
  unfold ratio_percent, float_truediv. destruct (is_zero y); congruence.
Qed.

(** Where an export call appears in a trace, the lines before it ran: both
    paths were read, the three operators before it returned, and the trace
    starts with their events. *)
Lemma export_call_inversion {W : Type} (h : host W) (argv : list string)
      (w w3 : W) (kw : export_kwargs) :
  In (Call (ExportGltf kw) w3) (trace (run h argv w)) ->
  exists a b w1 w2 t,
    input_file argv = inr a /\ output_file argv = inr b /\
    kw = export_settings b /\
    select_all h SELECT w = inr w1 /\ delete h w1 = inr w2 /\
    import_gltf h a w2 = inr w3 /\
    trace (run h argv w) =
      Print ("Compressing " ++ a ++ " -> " ++ b)%string ::
      Call (SelectAll SELECT) w :: Call Delete w1 ::
      Print "Importing GLB..." :: Call (ImportGltf a) w2 :: t.
Proof.
  run_cases; intros H; pick_event H.
  all: injection H as <- <-; do 5 eexists;
    repeat (split; [eassumption || reflexivity |]); reflexivity.
Qed.

(** C1. Whenever the script calls the exporter, the call carries the fixed
    configuration: Draco compression on, compression level 6, 14 bits for
    positions, 10 for normals, 12 for texture coordinates, and animations,
    morph targets and skins all kept. *)
Theorem export_call_has_the_fixed_configuration :
  forall (W : Type) (h : host W) (argv : list string) (w w' : W)
         (kw : export_kwargs),
    In (Call (ExportGltf kw) w') (trace (run h argv w)) ->
    export_draco_mesh_compression_enable kw = true /\
    export_draco_mesh_compression_level kw = 6%Z /\
    export_draco_position_quantization kw = 14%Z /\
    export_draco_normal_quantization kw = 10%Z /\
    export_draco_texcoord_quantization kw = 12%Z /\
    export_animations kw = true /\
    export_morph kw = true /\
    export_skins kw = true.
Proof.
  intros W h argv w w' kw H.
  destruct (export_call_inversion h argv w w' kw H)
    as (a & b & w1 & w2 & t & _ & _ & -> & _).
  cbn. repeat split.
Qed.

Lemma sample_export_call :
  In (Call (ExportGltf (export_settings "out.glb"))
           (Sample.loaded "head.glb" ["Head"; "Jaw"]))
     (trace (run Sample.blender Sample.argv Sample.start)).
Proof. vm_compute. do 8 right. left. reflexivity. Defined.

Lemma export_call_has_the_fixed_configuration_witness :
  In (Call (ExportGltf (export_settings "out.glb"))
           (Sample.loaded "head.glb" ["Head"; "Jaw"]))
     (trace (run Sample.blender Sample.argv Sample.start)) /\
  (export_draco_mesh_compression_enable (export_settings "out.glb") = true /\
   export_draco_mesh_compression_level (export_settings "out.glb") = 6%Z /\
   export_draco_position_quantization (export_settings "out.glb") = 14%Z /\
   export_draco_normal_quantization (export_settings "out.glb") = 10%Z /\
   export_draco_texcoord_quantization (export_settings "out.glb") = 12%Z /\
   export_animations (export_settings "out.glb") = true /\
   export_morph (export_settings "out.glb") = true /\
   export_skins (export_settings "out.glb") = true).
Proof.
  split; [exact sample_export_call |].
  exact (export_call_has_the_fixed_configuration
           Sample.world Sample.blender Sample.argv Sample.start
           (Sample.loaded "head.glb" ["Head"; "Jaw"])
           (export_settings "out.glb") sample_export_call).
Defined.

Lemma sample_export_call_other :
  In (Call (ExportGltf (export_settings "out.glb"))
           (Sample.loaded "empty.glb" []))
     (trace (run Sample.blender Sample.argv_empty Sample.start)).
Proof. vm_compute. do 8 right. left. reflexivity. Defined.

(** C7. The compression parameters do not depend on anything a run is given:
    for any two runs, on any hosts, command lines and worlds, the export
    calls carry the same compression parameters, and indeed agree on every
    argument but the file path. *)
Theorem compression_parameters_are_independent_of_inputs :
  forall (W1 W2 : Type) (h1 : host W1) (h2 : host W2)
         (argv1 argv2 : list string) (w1 u1 : W1) (w2 u2 : W2)
         (kw1 kw2 : export_kwargs),
    In (Call (ExportGltf kw1) u1) (trace (run h1 argv1 w1)) ->
    In (Call (ExportGltf kw2) u2) (trace (run h2 argv2 w2)) ->
    compression_parameters kw1 = compression_parameters kw2 /\
    with_filepath (filepath kw2) kw1 = kw2.
Proof.
  intros W1 W2 h1 h2 argv1 argv2 w1 u1 w2 u2 kw1 kw2 H1 H2.
  destruct (export_call_inversion h1 argv1 w1 u1 kw1 H1)
    as (a1 & b1 & _ & _ & _ & _ & _ & -> & _).
  destruct (export_call_inversion h2 argv2 w2 u2 kw2 H2)
    as (a2 & b2 & _ & _ & _ & _ & _ & -> & _).
  split; reflexivity.
Qed.

Lemma compression_parameters_are_independent_of_inputs_witness :
  compression_parameters (export_settings "out.glb") =
  compression_parameters (export_settings "out.glb") /\
  with_filepath (filepath (export_settings "out.glb")) (export_settings "out.glb") =
  export_settings "out.glb".
Proof.
  exact (compression_parameters_are_independent_of_inputs
           Sample.world Sample.world Sample.blender Sample.blender
           Sample.argv Sample.argv_empty Sample.start
           (Sample.loaded "head.glb" ["Head"; "Jaw"])
           Sample.start (Sample.loaded "empty.glb" [])
           (export_settings "out.glb") (export_settings "out.glb")
           sample_export_call sample_export_call_other).
Defined.

(** C5. The script handles no error. An exception raised while the two
    paths are read, or by any host call, is the outcome of the run, and the
    failing call is the last thing the run did; and the script never raises
    SystemExit, so it never chooses an exit code. *)
Theorem failures_propagate_uncaught :
  forall (W : Type) (h : host W) (argv : list string) (w : W),
    (forall e : exn,
        input_file argv = inl e \/ output_file argv = inl e ->
        result (run h argv w) = Uncaught e /\ trace (run h argv w) = []) /\
    (forall (c : call) (w' : W) (e : exn),
        In (Call c w') (trace (run h argv w)) -> raises h c w' = Some e ->
        result (run h argv w) = Uncaught e /\
        exists t, trace (run h argv w) = t ++ [Call c w']) /\
    (forall code : Z, result (run h argv w) <> Uncaught (SystemExit code)).
Proof.
  intros W h argv w. split; [| split].
  - intros e He.
    destruct (input_file argv) as [e1 | a] eqn:Ha.
    + rewrite (run_input_file_raises h argv w e1 Ha). cbn [result trace].
      split; [| reflexivity]. destruct He as [He | He]; [congruence |].
      f_equal. revert Ha He. unfold input_file, output_file, list_getitem.
      destruct (list_index argv "--") as [e0 | i]; [congruence |].
      destruct (nth_error argv (i + 1)) eqn:E1; [discriminate |].
      destruct (nth_error argv (i + 2)) eqn:E2; [discriminate | congruence].
    + destruct He as [He | He]; [discriminate |].
      rewrite (run_output_file_raises h argv w a e Ha He). split; reflexivity.
  - intros c w' e. run_cases; intros H Hr; pick_event H.
    all: injection H as <- <-; cbn [raises] in Hr.
    all: repeat match goal with
                | E : ?x = _, Hr' : context [?x] |- _ => rewrite E in Hr'
                end; try discriminate Hr.
    all: injection Hr as <-; split; [reflexivity |].
    all: match goal with
         | |- @ex _ (fun _ => ?l = _) => exists (removelast l); reflexivity
         end.
  - intros code. run_cases; intros H; try discriminate H; injection H as H.
    all: repeat match goal with
                | E : input_file _ = inl _ |- _ => apply input_file_raises in E
                | E : output_file _ = inl _ |- _ => apply output_file_raises in E
                | E : megabytes _ = inl _ |- _ => apply megabytes_raises in E
                | E : ratio_percent _ _ = inl _ |- _ => apply ratio_percent_raises in E
                end.
    all: try (subst; discriminate).
    all: repeat match goal with E : _ \/ _ |- _ => destruct E end; subst; discriminate.
Qed.

Lemma failures_propagate_uncaught_witness :
  result (run Sample.blender Sample.argv_missing Sample.start) =
  Uncaught (RuntimeError "Please select a file") /\
  exists t,
    trace (run Sample.blender Sample.argv_missing Sample.start) =
    t ++ [Call (ImportGltf "gone.glb") Sample.cleared].
Proof.
  refine (proj1 (proj2 (failures_propagate_uncaught
                          Sample.world Sample.blender Sample.argv_missing
                          Sample.start))
                (ImportGltf "gone.glb") Sample.cleared _ _ _).
  - vm_compute. do 4 right. left. reflexivity.
  - reflexivity.
Defined.

(** C6, as stated, fails on a command line without the separator: the run
    stops at line 6 and neither imports nor exports. *)
Lemma no_separator_no_transfer :
  result (run Sample.blender Sample.argv_bare Sample.start) = Uncaught ValueError /\
  transfers (trace (run Sample.blender Sample.argv_bare Sample.start)) = [] /\
  ~ imports_then_exports_once
      (trace (run Sample.blender Sample.argv_bare Sample.start)).
Proof.
  split; [reflexivity | split; [reflexivity |]].
  intros (p & kw & H). discriminate H.
Qed.

(** C6, amended. The host calls of a run are a prefix of the six calls of
    the script in program order, so nothing is retried, the input is
    imported at most once, and the output is exported at most once and only
    after the import returned; a run that finishes issued all six, hence
    imported exactly once and then exported exactly once. *)
Theorem host_calls_follow_the_program_order :
  forall (W : Type) (h : host W) (argv : list string) (w : W),
    match input_file argv, output_file argv with
    | inr a, inr b =>
        match result (run h argv w) with
        | Finished =>
            calls (trace (run h argv w)) = planned_calls a b /\
            imports_then_exports_once (trace (run h argv w))
        | Uncaught _ =>
            exists rest, planned_calls a b = calls (trace (run h argv w)) ++ rest
        end
    | _, _ => calls (trace (run h argv w)) = []
    end.
Proof.
  intros W h argv w. run_cases.
  all: try reflexivity.
  all: try (eexists; reflexivity).
  split; [reflexivity |]. do 2 eexists. reflexivity.
Qed.

(** A run whose six host calls return reaches line 49 with the trace
    [progress]; what is left is arithmetic and printing. *)
Lemma run_after_the_size_queries {W : Type} (h : host W) (argv : list string)
      (a b : string) (w w1 w2 w3 w4 : W) (i o : N) :
  input_file argv = inr a -> output_file argv = inr b ->
  select_all h SELECT w = inr w1 -> delete h w1 = inr w2 ->
  import_gltf h a w2 = inr w3 ->
  export_gltf h (export_settings b) w3 = inr w4 ->
  getsize h a w4 = inr i -> getsize h b w4 = inr o ->
  (Z.of_N i < 2 ^ 53)%Z -> (Z.of_N o < 2 ^ 53)%Z ->
  run h argv w =
  let sizes :=
    [ Print ("Input size: " ++ format_f 2 (megabytes_value i) ++ " MB")%string;
      Print ("Output size: " ++ format_f 2 (megabytes_value o) ++ " MB")%string ] in
  match ratio_percent (megabytes_value o) (megabytes_value i) with
  | inl e =>
      {| result := Uncaught e; final := w4;
         trace := progress a b w w1 w2 w3 w4 ++ sizes |}
  | inr ratio =>
      {| result := Finished; final := w4;
         trace := progress a b w w1 w2 w3 w4 ++ sizes ++
                  [Print ("Compression ratio: " ++ format_f 1 ratio ++ "%")%string] |}
  end.
Proof.
  intros Ha Hb H1 H2 H3 H4 Hi Ho Bi Bo.
  unfold run. rewrite (main_with_paths h argv a b _ Ha Hb).
  unfold compress, bind, lift, print, operator, os_path_getsize.
  cbn [fst snd app]. rewrite H1. cbn [fst snd app]. rewrite H2.
  cbn [fst snd app]. rewrite H3. cbn [fst snd app]. rewrite H4.
  cbn [fst snd app]. rewrite Hi. cbn [fst snd app].
  rewrite (megabytes_exact i Bi). cbn [fst snd app]. rewrite Ho.
  cbn [fst snd app]. rewrite (megabytes_exact o Bo). cbn [fst snd app].
  destruct (ratio_percent (megabytes_value o) (megabytes_value i)); reflexivity.
Qed.

(** C9, as stated, fails when an empty input is compressed onto itself: the
    input file has zero bytes when the run starts, the importer of the
    sample host accepts it, the exporter overwrites it, and line 47 then
    measures the written file; the run finishes and prints a ratio. *)
Lemma empty_input_in_place_finishes :
  input_file Sample.argv_empty_in_place = inr "empty.glb" /\
  getsize Sample.blender "empty.glb" Sample.start = inr 0%N /\
  result (run Sample.blender Sample.argv_empty_in_place Sample.start) = Finished /\
  result (run Sample.blender Sample.argv_empty_in_place Sample.start) <>
    Uncaught ZeroDivisionError /\
  In (Print "Compression ratio: 0.0%")
     (trace (run Sample.blender Sample.argv_empty_in_place Sample.start)).
Proof.
  split; [reflexivity | split; [reflexivity | split; [reflexivity | split]]].
  - intros H. discriminate H.
  - vm_compute. do 14 right. left. reflexivity.
Qed.

(** C9, amended. When the four operators return and the size query made
    after the export finds zero bytes at the input path, the script raises
    ZeroDivisionError at line 51: the export call is in the trace and the
    run ends in the world the exporter left, the two size lines are
    printed, and no line with the ratio is. *)
Theorem empty_input_raises_after_the_export :
  forall (W : Type) (h : host W) (argv : list string) (a b : string)
         (w w1 w2 w3 w4 : W) (o : N),
    input_file argv = inr a -> output_file argv = inr b ->
    select_all h SELECT w = inr w1 -> delete h w1 = inr w2 ->
    import_gltf h a w2 = inr w3 ->
    export_gltf h (export_settings b) w3 = inr w4 ->
    getsize h a w4 = inr 0%N -> getsize h b w4 = inr o ->
    (Z.of_N o < 2 ^ 53)%Z ->
    result (run h argv w) = Uncaught ZeroDivisionError /\
    final (run h argv w) = w4 /\
    trace (run h argv w) =
      progress a b w w1 w2 w3 w4 ++
      [ Print "Input size: 0.00 MB";
        Print ("Output size: " ++ format_f 2 (megabytes_value o) ++ " MB")%string ] /\
    In (Call (ExportGltf (export_settings b)) w3) (trace (run h argv w)) /\
    forall line : string,
      In (Print line) (trace (run h argv w)) ->
      String.prefix "Compression ratio" line = false.
Proof.
  intros W h argv a b w w1 w2 w3 w4 o Ha Hb H1 H2 H3 H4 Hi Ho Bo.
  rewrite (run_after_the_size_queries h argv a b w w1 w2 w3 w4 0 o)
    by (try assumption; reflexivity).
  cbv zeta. rewrite ratio_percent_of_nothing. cbn [result final trace].
  split; [reflexivity | split; [reflexivity | split; [reflexivity | split]]].
  - unfold progress. cbn [app In]. do 8 right. left. reflexivity.
  - intros line H. unfold progress in H. cbn [app In] in H.
    repeat (destruct H as [H | H]; [try discriminate H |]); try contradiction.
    all: injection H as <-; reflexivity.
Qed.

Lemma empty_input_raises_after_the_export_witness :
  result (run Sample.blender Sample.argv_empty Sample.start) =
  Uncaught ZeroDivisionError /\
  final (run Sample.blender Sample.argv_empty Sample.start) =
  Sample.exported "empty.glb" [] /\
  prints (trace (run Sample.blender Sample.argv_empty Sample.start)) =
  [ "Compressing empty.glb -> out.glb"; "Importing GLB...";
    "Skipping texture optimization (using original textures)";
    "Skipping mesh decimation (preserving morph targets for facial animation)";
    "Exporting compressed GLB..."; "Compression complete!";
    "Input size: 0.00 MB"; "Output size: 0.00 MB" ].
Proof.
  pose proof (empty_input_raises_after_the_export
                Sample.world Sample.blender Sample.argv_empty
                "empty.glb" "out.glb"
                Sample.start Sample.selected Sample.cleared
                (Sample.loaded "empty.glb" []) (Sample.exported "empty.glb" [])
                12%N eq_refl eq_refl eq_refl eq_refl eq_refl eq_refl eq_refl
                eq_refl eq_refl) as (Hr & Hf & Ht & _).
  split; [exact Hr | split; [exact Hf |]].
  rewrite Ht. reflexivity.
Defined.

Lemma finished_run_inversion {W : Type} (h : host W) (argv : list string) (w : W) :
  result (run h argv w) = Finished ->
  exists (a b : string) (w1 w2 w3 w4 : W) (i o : N),
    input_file argv = inr a /\ output_file argv = inr b /\
    select_all h SELECT w = inr w1 /\ delete h w1 = inr w2 /\
    import_gltf h a w2 = inr w3 /\
    export_gltf h (export_settings b) w3 = inr w4 /\
    getsize h a w4 = inr i /\ getsize h b w4 = inr o /\
    final (run h argv w) = w4.
Proof.
  run_cases; intros H; try discriminate H.
  do 8 eexists. repeat split; eassumption.
Qed.

(** C4. After a run that finishes, the last event is the summary line, and
    the number in it is [(1 - output_size/input_size) * 100] on the two
    sizes in bytes, in binary64 arithmetic, printed with one decimal: the
    division of both sizes by [1024*1024] cancels exactly. Sizes are below
    [2^53] bytes, where an integer is a float without rounding. *)
Theorem summary_is_the_ratio_of_the_byte_sizes :
  forall (W : Type) (h : host W) (argv : list string) (w : W)
         (a b : string) (i o : N),
    result (run h argv w) = Finished ->
    input_file argv = inr a -> output_file argv = inr b ->
    getsize h a (final (run h argv w)) = inr i ->
    getsize h b (final (run h argv w)) = inr o ->
    (Z.of_N i < 2 ^ 53)%Z -> (Z.of_N o < 2 ^ 53)%Z ->
    exists t,
      trace (run h argv w) =
      t ++ [Print ("Compression ratio: " ++
                   format_f 1 (size_ratio_summary i o) ++ "%")%string].
Proof.
  intros W h argv w a b i o Hfin Ha Hb Hi Ho Bi Bo.
  destruct (finished_run_inversion h argv w Hfin)
    as (a' & b' & w1 & w2 & w3 & w4 & i' & o' &
        Ha' & Hb' & H1 & H2 & H3 & H4 & Hi' & Ho' & Hw).
  assert (a' = a) by congruence. assert (b' = b) by congruence. subst a' b'.
  rewrite Hw in Hi, Ho.
  assert (i' = i) by congruence. assert (o' = o) by congruence. subst i' o'.
  rewrite (run_after_the_size_queries h argv a b w w1 w2 w3 w4 i o) in Hfin |- *
    by assumption.
  cbv zeta in Hfin |- *.
  destruct (N.eq_dec i 0) as [-> | Hnz].
  - rewrite ratio_percent_of_nothing in Hfin. discriminate Hfin.
  - rewrite (ratio_percent_megabytes i o Bi Bo Hnz). cbn [trace].
    eexists. rewrite app_assoc. reflexivity.
Qed.

Lemma sample_run_finishes :
  run Sample.blender Sample.argv Sample.start =
  {| result := Finished;
     final := Sample.exported "head.glb" ["Head"; "Jaw"];
     trace :=
       progress "head.glb" "out.glb" Sample.start Sample.selected Sample.cleared
                (Sample.loaded "head.glb" ["Head"; "Jaw"])
                (Sample.exported "head.glb" ["Head"; "Jaw"]) ++
       [ Print "Input size: 3.00 MB"; Print "Output size: 2.00 MB";
         Print "Compression ratio: 33.3%" ] |}.
Proof. vm_compute. reflexivity. Qed.

Lemma summary_is_the_ratio_of_the_byte_sizes_witness :
  exists t,
    trace (run Sample.blender Sample.argv Sample.start) =
    t ++ [Print ("Compression ratio: " ++
                 format_f 1 (size_ratio_summary 3145728 2097164) ++ "%")%string].
Proof.
  exact (summary_is_the_ratio_of_the_byte_sizes
           Sample.world Sample.blender Sample.argv Sample.start
           "head.glb" "out.glb" 3145728%N 2097164%N
           eq_refl eq_refl eq_refl eq_refl eq_refl eq_refl eq_refl).
Defined.

(** ** The scene at export time *)

(** The sample host keeps the contract of the three scene operators. *)
Lemma sample_select_all_selects (w w' : Sample.world) :
  select_all Sample.blender SELECT w = inr w' ->
  Sample.scene w' = Sample.scene w /\
  forall o, In o (Sample.scene w) -> Sample.is_visible w o = true ->
            Sample.is_selected w' o = true.
Proof.
  cbn. intros H. injection H as <-. cbn. split; [reflexivity |].
  intros o Hin Hv. unfold Sample.is_selected. cbn.
  apply existsb_exists. exists (Sample.name o). split; [| apply String.eqb_refl].
  apply in_map. apply filter_In. split; assumption.
Qed.

Lemma sample_delete_removes_selected (w w' : Sample.world) :
  delete Sample.blender w = inr w' ->
  forall o, In o (Sample.scene w') ->
            In o (Sample.scene w) /\ Sample.is_selected w o = false.
Proof.
  cbn. intros H. injection H as <-. cbn. intros o Hin.
  apply filter_In in Hin. destruct Hin as [Hin Hs].
  split; [exact Hin |]. apply negb_true_iff. exact Hs.
Qed.

Lemma sample_import_adds_file_content (p : string) (w w' : Sample.world) :
  import_gltf Sample.blender p w = inr w' ->
  forall o, In o (Sample.scene w') ->
            In o (Sample.scene w) \/ Sample.provenance w' o = Some p.
Proof.
  cbn. unfold Sample.import_gltf. destruct (Sample.lookup p (Sample.files w)); [| discriminate].
  intros H. injection H as <-. cbn. intros o Hin.
  apply in_app_or in Hin. destruct Hin as [Hin | Hin]; [left; exact Hin | right].
  apply in_map_iff in Hin. destruct Hin as (n & <- & _). reflexivity.
Qed.

Section SceneContract.

Context {W O : Type} (h : host W).

(** What the script's reasoning needs of the host: the objects of the
    scene, which of them are visible, which are selected, and the file an
    object was imported from, if it was imported. *)
Variable objects : W -> list O.
Variable is_visible is_selected : W -> O -> bool.
Variable provenance : W -> O -> option string.

(** [select_all(action='SELECT')] selects all visible objects. *)
Hypothesis select_all_selects :
  forall w w', select_all h SELECT w = inr w' ->
    objects w' = objects w /\
    forall o, In o (objects w) -> is_visible w o = true -> is_selected w' o = true.

(** [delete()] removes the selected objects and adds none. *)
Hypothesis delete_removes_selected :
  forall w w', delete h w = inr w' ->
    forall o, In o (objects w') -> In o (objects w) /\ is_selected w o = false.

(** [import_scene.gltf] adds objects of the file and no others. *)
Hypothesis import_adds_file_content :
  forall p w w', import_gltf h p w = inr w' ->
    forall o, In o (objects w') -> In o (objects w) \/ provenance w' o = Some p.

(** C10. On a host whose operators do what Blender documents, started on
    a scene whose objects are all visible (as in the default scene), the
    script selects everything and deletes it before it imports: the two
    calls precede the import, the scene is empty when the import starts,
    and every object in the scene the exporter sees was created by
    importing the input file. *)
Theorem export_sees_only_imported_objects :
  forall (argv : list string) (w w3 : W) (kw : export_kwargs),
    (forall o, In o (objects w) -> is_visible w o = true) ->
    In (Call (ExportGltf kw) w3) (trace (run h argv w)) ->
    exists (a : string) (w1 w2 : W) (t : list (event W)),
      input_file argv = inr a /\
      trace (run h argv w) =
        Print ("Compressing " ++ a ++ " -> " ++ filepath kw)%string ::
        Call (SelectAll SELECT) w :: Call Delete w1 ::
        Print "Importing GLB..." :: Call (ImportGltf a) w2 :: t /\
      objects w2 = [] /\
      forall o, In o (objects w3) -> provenance w3 o = Some a.
Proof.
  intros argv w w3 kw Hvis Hin.
  destruct (export_call_inversion h argv w w3 kw Hin)
    as (a & b & w1 & w2 & t & Ha & Hb & -> & H1 & H2 & H3 & Ht).
  assert (Hempty : objects w2 = []).
  { destruct (objects w2) as [| o l] eqn:E; [reflexivity | exfalso].
    destruct (delete_removes_selected w1 w2 H2 o) as [Hin1 Hsel].
    { rewrite E. left. reflexivity. }
    destruct (select_all_selects w w1 H1) as [Hsame Hall].
    rewrite Hsame in Hin1.
    rewrite (Hall o Hin1 (Hvis o Hin1)) in Hsel. discriminate Hsel. }
  exists a, w1, w2, t.
  split; [exact Ha | split; [exact Ht | split; [exact Hempty |]]].
  intros o Ho.
  destruct (import_adds_file_content a w2 w3 H3 o Ho) as [Hold | Hnew];
    [| exact Hnew].
  rewrite Hempty in Hold. destruct Hold.
Qed.

End SceneContract.

Lemma export_sees_only_imported_objects_witness :
  exists (a : string) (w1 w2 : Sample.world) (t : list (event Sample.world)),
    input_file Sample.argv = inr a /\
    trace (run Sample.blender Sample.argv Sample.start) =
      Print ("Compressing " ++ a ++ " -> " ++ "out.glb")%string ::
      Call (SelectAll SELECT) Sample.start :: Call Delete w1 ::
      Print "Importing GLB..." :: Call (ImportGltf a) w2 :: t /\
    Sample.scene w2 = [] /\
    forall o, In o (Sample.scene (Sample.loaded "head.glb" ["Head"; "Jaw"])) ->
              Sample.provenance (Sample.loaded "head.glb" ["Head"; "Jaw"]) o = Some a.
Proof.
  refine (export_sees_only_imported_objects
            Sample.blender Sample.scene Sample.is_visible Sample.is_selected
            Sample.provenance sample_select_all_selects
            sample_delete_removes_selected sample_import_adds_file_content
            Sample.argv Sample.start (Sample.loaded "head.glb" ["Head"; "Jaw"])
            (export_settings "out.glb") _ sample_export_call).
  intros o Ho. cbn in Ho.
  destruct Ho as [<- | [<- | [<- | []]]]; reflexivity.
Defined.

(** ** Further properties of the script *)

(** *** What stdout tells about the run *)

Ltac pick_line H :=
  cbn [In] in H;
  repeat (destruct H as [H | H];
          [try (cbn [String.append] in H; discriminate H) |]);
  try contradiction.

(** X1. The line [Compression complete!] is on stdout exactly when the
    exporter was called, with the settings of lines 29-42 on the output
    path, and returned without an error. *)
Theorem completion_line_means_the_export_returned :
  forall (W : Type) (h : host W) (argv : list string) (w : W),
    In (Print "Compression complete!") (trace (run h argv w)) <->
    exists (b : string) (w3 w4 : W),
      output_file argv = inr b /\
      In (Call (ExportGltf (export_settings b)) w3) (trace (run h argv w)) /\
      export_gltf h (export_settings b) w3 = inr w4.
Proof.
  intros W h argv w. split.
  - run_cases; intros H; pick_line H.
    all: do 3 eexists; split; [reflexivity | split; [| eassumption]].
    all: cbn [In]; do 8 right; left; reflexivity.
  - run_cases; intros (b & u & u' & Hb & H & Hex); try discriminate Hb.
    all: pick_event H.
    all: injection Hb as <-; injection H as ->; try congruence.
    all: cbn [In]; do 9 right; left; reflexivity.
Qed.

Lemma completion_line_means_the_export_returned_witness :
  exists (b : string) (w3 w4 : Sample.world),
    output_file Sample.argv = inr b /\
    In (Call (ExportGltf (export_settings b)) w3)
       (trace (run Sample.blender Sample.argv Sample.start)) /\
    export_gltf Sample.blender (export_settings b) w3 = inr w4.
Proof.
  refine (proj1 (completion_line_means_the_export_returned
                   Sample.world Sample.blender Sample.argv Sample.start) _).
  vm_compute. do 9 right. left. reflexivity.
Defined.

(** *** The command line, read backwards *)

Lemma list_index_found (l : list string) (x : string) (i : nat) :
  list_index l x = inr i ->
  exists pre rest, ~ In x pre /\ l = pre ++ x :: rest /\ List.length pre = i.
Proof.
  revert i. induction l as [| y l IH]; cbn [list_index]; intros i H.
  - discriminate H.
  - destruct (String.eqb_spec y x) as [-> | Hne].
    + injection H as <-. exists [], l. split; [intros [] | split; reflexivity].
    + destruct (list_index l x) as [e | j]; [discriminate H |].
      injection H as <-.
      destruct (IH j eq_refl) as (pre & rest & Hpre & -> & Hlen).
      exists (y :: pre), rest. split; [| split].
      * intros [Heq | Hin]; [congruence | exact (Hpre Hin)].
      * reflexivity.
      * cbn [List.length]. rewrite Hlen. reflexivity.
Qed.

Lemma paths_determine_the_command_line (argv : list string) (a b : string) :
  input_file argv = inr a -> output_file argv = inr b ->
  exists pre rest, ~ In "--" pre /\ argv = pre ++ "--" :: a :: b :: rest.
Proof.
  unfold input_file, output_file. intros Ha Hb.
  destruct (list_index argv "--") as [e | i] eqn:Hi; [discriminate Ha |].
  destruct (list_index_found argv "--" i Hi) as (pre & rest & Hpre & -> & <-).
  replace (List.length pre + 1) with (List.length pre + S 0) in Ha by lia.
  replace (List.length pre + 2) with (List.length pre + S 1) in Hb by lia.
  rewrite getitem_after_separator in Ha, Hb.
  unfold list_getitem in Ha, Hb.
  destruct rest as [| a' [| b' rest]]; cbn [nth_error] in Ha, Hb;
    try discriminate.
  injection Ha as ->. injection Hb as ->.
  exists pre, rest. split; [exact Hpre | reflexivity].
Qed.

(** X2. Whatever a run does (a printed line, a host call), it does only on
    a command line that holds the separator followed by two arguments: the
    two arguments are the paths the event comes from. *)
Theorem every_event_needs_two_paths_after_the_separator :
  forall (W : Type) (h : host W) (argv : list string) (w : W) (ev : event W),
    In ev (trace (run h argv w)) ->
    exists (pre rest : list string) (a b : string),
      ~ In "--" pre /\ argv = pre ++ "--" :: a :: b :: rest /\
      input_file argv = inr a /\ output_file argv = inr b.
Proof.
  intros W h argv w ev Hev.
  destruct (input_file argv) as [e | a] eqn:Ha.
  { rewrite (run_input_file_raises h argv w e Ha) in Hev. destruct Hev. }
  destruct (output_file argv) as [e | b] eqn:Hb.
  { rewrite (run_output_file_raises h argv w a e Ha Hb) in Hev. destruct Hev. }
  destruct (paths_determine_the_command_line argv a b Ha Hb)
    as (pre & rest & Hpre & Hargv).
  exists pre, rest, a, b. repeat split; assumption.
Qed.

Lemma every_event_needs_two_paths_after_the_separator_witness :
  exists (pre rest : list string) (a b : string),
    ~ In "--" pre /\ Sample.argv = pre ++ "--" :: a :: b :: rest /\
    input_file Sample.argv = inr a /\ output_file Sample.argv = inr b.
Proof.
  refine (every_event_needs_two_paths_after_the_separator
            Sample.world Sample.blender Sample.argv Sample.start
            (Print "Importing GLB...") _).
  vm_compute. do 3 right. left. reflexivity.
Defined.

(** X3. Only the two paths matter: what stands before the separator and
    what follows the second argument after it changes nothing in the run. *)
Theorem run_depends_on_the_two_paths_only :
  forall (W : Type) (h : host W) (pre rest : list string) (a b : string) (w : W),
    ~ In "--" pre ->
    run h (pre ++ "--" :: a :: b :: rest) w = run h ["--"; a; b] w.
Proof.
  intros W h pre rest a b w Hpre. unfold run.
  rewrite (main_with_paths h (pre ++ "--" :: a :: b :: rest) a b).
  - rewrite (main_with_paths h ["--"; a; b] a b); reflexivity.
  - unfold input_file. rewrite list_index_first by exact Hpre.
    rewrite getitem_after_separator. reflexivity.
  - unfold output_file. rewrite list_index_first by exact Hpre.
    rewrite getitem_after_separator. reflexivity.
Qed.

Lemma run_depends_on_the_two_paths_only_witness :
  run Sample.blender Sample.argv Sample.start =
  run Sample.blender ["--"; "head.glb"; "out.glb"] Sample.start.
Proof.
  refine (run_depends_on_the_two_paths_only
            Sample.world Sample.blender
            ["blender"; "-b"; "-P"; "compress_glb.py"] [] "head.glb" "out.glb"
            Sample.start _).
  cbn. intros [E | [E | [E | [E | []]]]]; discriminate E.
Defined.

(** *** The summary line at its edges *)

Lemma fdiv_same (p : positive) :
  fdiv (S754_finite false p 0) (S754_finite false p 0) =
  S754_finite false 4503599627370496 (-52).
Proof.
  unfold fdiv, SFdiv.
  rewrite (SFdiv_core_binary_shift (Zpos p) 0 (Zpos p) 0 (-53) 53)
    by (unfold fexp, SpecFloat.emin, prec, emax; lia).
  rewrite Z.mul_comm, Z.div_mul, Z.mod_mul by lia.
  assert (Hl : new_location (Zpos p) 0 = loc_Exact).
  { unfold new_location. destruct (Z.even (Zpos p)); reflexivity. }
  rewrite Hl. cbn [xorb].
  change (2 ^ 53)%Z with (Zpos (4503599627370496~0)).
  rewrite binary_round_aux_one_spare_bit; [reflexivity | reflexivity | lia].
Qed.

Lemma size_ratio_summary_same (size : N) :
  size <> 0%N -> size_ratio_summary size size = S754_zero false.
Proof.
  intros Hnz. destruct size as [| p]; [congruence |].
  unfold size_ratio_summary. cbn [Z.of_N exact_of_int].
  rewrite fdiv_same. vm_compute. reflexivity.
Qed.

Lemma megabytes_value_zero (size : N) :
  is_zero (megabytes_value size) = true -> size = 0%N.
Proof.
  destruct size as [| p]; [reflexivity | discriminate].
Qed.

(** X4. A run ends with ZeroDivisionError only at line 51: the exporter
    has returned and left the final world, both size queries have returned
    in it, and the size found for the input is zero (for sizes below
    [2^53] bytes, where the conversion to megabytes is exact). *)
Theorem zero_division_only_on_an_empty_input :
  forall (W : Type) (h : host W) (argv : list string) (w : W),
    result (run h argv w) = Uncaught ZeroDivisionError ->
    exists (a b : string) (w3 : W) (i o : N),
      input_file argv = inr a /\ output_file argv = inr b /\
      In (Call (ExportGltf (export_settings b)) w3) (trace (run h argv w)) /\
      export_gltf h (export_settings b) w3 = inr (final (run h argv w)) /\
      getsize h a (final (run h argv w)) = inr i /\
      getsize h b (final (run h argv w)) = inr o /\
      ((Z.of_N i < 2 ^ 53)%Z -> i = 0%N).
Proof.
  intros W h argv w. run_cases; intros H; try discriminate H.
  all: injection H as H.
  all: repeat match goal with
              | E : input_file _ = inl _ |- _ => apply input_file_raises in E
              | E : output_file _ = inl _ |- _ => apply output_file_raises in E
              | E : megabytes _ = inl _ |- _ => apply megabytes_raises in E
              end.
  all: try (subst; discriminate).
  all: try (repeat match goal with E : _ \/ _ |- _ => destruct E end;
            subst; discriminate).
  do 5 eexists.
  repeat (split; [eassumption || reflexivity |]).
  split; [cbn [In]; do 8 right; left; reflexivity |].
  repeat (split; [eassumption |]).
  intros Bi.
  match goal with
  | E : megabytes ?i = inr _ |- ?i = _ =>
      rewrite (megabytes_exact i Bi) in E; injection E as <-
  end.
  apply megabytes_value_zero.
  match goal with
  | E : ratio_percent _ _ = inl _ |- _ =>
      unfold ratio_percent, float_truediv in E
  end.
  destruct (is_zero (megabytes_value _)); [reflexivity | discriminate].
Qed.

Lemma zero_division_only_on_an_empty_input_witness :
  exists (a b : string) (w3 : Sample.world) (i o : N),
    input_file Sample.argv_empty = inr a /\
    output_file Sample.argv_empty = inr b /\
    In (Call (ExportGltf (export_settings b)) w3)
       (trace (run Sample.blender Sample.argv_empty Sample.start)) /\
    export_gltf Sample.blender (export_settings b) w3 =
      inr (final (run Sample.blender Sample.argv_empty Sample.start)) /\
    getsize Sample.blender a
      (final (run Sample.blender Sample.argv_empty Sample.start)) = inr i /\
    getsize Sample.blender b
      (final (run Sample.blender Sample.argv_empty Sample.start)) = inr o /\
    ((Z.of_N i < 2 ^ 53)%Z -> i = 0%N).
Proof.
  exact (zero_division_only_on_an_empty_input
           Sample.world Sample.blender Sample.argv_empty Sample.start eq_refl).
Defined.

(** X5. Compressing a file onto itself hides the gain: when the input and
    the output path are the same, both sizes are measured on the written
    file, and a run that finishes reports a ratio of 0.0 percent (for a
    file below [2^53] bytes). *)
Theorem in_place_run_reports_no_gain :
  forall (W : Type) (h : host W) (argv : list string) (w : W)
         (a : string) (size : N),
    input_file argv = inr a -> output_file argv = inr a ->
    result (run h argv w) = Finished ->
    getsize h a (final (run h argv w)) = inr size ->
    (Z.of_N size < 2 ^ 53)%Z ->
    exists t, trace (run h argv w) = t ++ [Print "Compression ratio: 0.0%"].
Proof.
  intros W h argv w a size Ha Hb Hfin Hsize Bs.
  destruct (finished_run_inversion h argv w Hfin)
    as (a' & b' & w1 & w2 & w3 & w4 & i & o &
        Ha' & Hb' & H1 & H2 & H3 & H4 & Hi & Ho & Hw).
  assert (a' = a) by congruence. assert (b' = a) by congruence. subst a' b'.
  rewrite Hw in Hsize.
  assert (i = size) by congruence. assert (o = size) by congruence. subst i o.
  rewrite (run_after_the_size_queries h argv a a w w1 w2 w3 w4 size size)
    in Hfin |- * by assumption.
  cbv zeta in Hfin |- *.
  destruct (N.eq_dec size 0) as [-> | Hnz].
  - rewrite ratio_percent_of_nothing in Hfin. discriminate Hfin.
  - rewrite (ratio_percent_megabytes size size Bs Bs Hnz).
    rewrite (size_ratio_summary_same size Hnz). cbn [trace].
    eexists. rewrite app_assoc. reflexivity.
Qed.

Lemma in_place_run_reports_no_gain_witness :
  exists t,
    trace (run Sample.blender Sample.argv_in_place Sample.start) =
    t ++ [Print "Compression ratio: 0.0%"].
Proof.
  exact (in_place_run_reports_no_gain
           Sample.world Sample.blender Sample.argv_in_place Sample.start
           "head.glb" 2097164%N eq_refl eq_refl eq_refl eq_refl eq_refl).
Defined.

(** *** Where an exception comes from *)

(** X6. The exception a run ends with names the step that raised it:
    ValueError and IndexError come from lines 6-7, before anything was
    done; RuntimeError and OSError come from the host call that is the last
    event of the trace; ZeroDivisionError and OverflowError come from the
    arithmetic of lines 47-51, after the exporter returned; and SystemExit
    never occurs. *)
Theorem uncaught_exception_names_its_source :
  forall (W : Type) (h : host W) (argv : list string) (w : W) (e : exn),
    result (run h argv w) = Uncaught e ->
    match e with
    | ValueError | IndexError =>
        trace (run h argv w) = [] /\ final (run h argv w) = w
    | RuntimeError _ | OSError _ =>
        exists t c w',
          trace (run h argv w) = t ++ [Call c w'] /\ raises h c w' = Some e
    | ZeroDivisionError | OverflowError =>
        exists kw w3,
          In (Call (ExportGltf kw) w3) (trace (run h argv w)) /\
          export_gltf h kw w3 = inr (final (run h argv w))
    | SystemExit _ => False
    end.
Proof.
  intros W h argv w. run_cases; intros raised H; try discriminate H.
  all: injection H as <-.
  all: repeat match goal with
              | E : input_file _ = inl _ |- _ => apply input_file_raises in E
              | E : output_file _ = inl _ |- _ => apply output_file_raises in E
              | E : megabytes _ = inl _ |- _ => apply megabytes_raises in E
              | E : ratio_percent _ _ = inl _ |- _ => apply ratio_percent_raises in E
              end.
  all: repeat match goal with E : _ \/ _ |- _ => destruct E end; subst.
  all: try (split; reflexivity).
  all: try (do 2 eexists; split;
            [cbn [In]; do 8 right; left; reflexivity | eassumption]).
  all: match goal with
       | |- @ex _ (fun _ => @ex _ (fun _ => @ex _ (fun _ => ?l = _ /\ _))) =>
           exists (removelast l)
       end.
  all: do 2 eexists; split; [reflexivity |].
  all: cbn [raises].
  all: match goal with E : ?x = inl _ |- context [?x] => rewrite E end.
  all: reflexivity.
Qed.

Lemma uncaught_exception_names_its_source_witness :
  exists t c w',
    trace (run Sample.blender Sample.argv_missing Sample.start) =
      t ++ [Call c w'] /\
    raises Sample.blender c w' = Some (RuntimeError "Please select a file").
Proof.
  exact (uncaught_exception_names_its_source
           Sample.world Sample.blender Sample.argv_missing Sample.start
           (RuntimeError "Please select a file") eq_refl).
Defined.
